(** * Verification of the [/api/check-ssl] endpoint

    Shallow embedding of [backend/scripts/ssl_api.py]: the Flask view
    [check_ssl], the Python operations it applies to the parsed request
    body, and the collaborators it calls ([request.get_json], [SSLChecker],
    [jsonify]).  Python exceptions are an explicit [outcome]; the objects a
    call allocates live in a store, and every call into the checker is
    recorded in an event trace. *)

From stdpp Require Import base gmap strings list.
From Stdlib Require Import ZArith QArith Lia.

#[local] Set Warnings "-register-all".

Open Scope string_scope.
Open Scope nat_scope.

(** ** Python values and exceptions *)

(** What [request.get_json()] can return and what [jsonify] emits: the
    Python image of a JSON document.  A [dict] keeps its insertion order;
    its keys are distinct. *)
Inductive json : Type :=
| JNull
| JBool (b : bool)
| JInt (n : Z)
| JFloat (q : Q)
| JStr (s : string)
| JList (items : list json)
| JDict (fields : list (string * json)).

(** An instance of [Exception]: its class name and [str(e)]. *)
Record exn := Exn { exc_type : string; exc_str : string }.

Inductive outcome (A : Type) : Type :=
| Returns (a : A)
| Raises (e : exn).
Arguments Returns {A} a.
Arguments Raises {A} e.

Definition type_name (v : json) : string :=
  match v with
  | JNull => "NoneType"
  | JBool _ => "bool"
  | JInt _ => "int"
  | JFloat _ => "float"
  | JStr _ => "str"
  | JList _ => "list"
  | JDict _ => "dict"
  end.

(** [bool(v)], as [not data] evaluates it. *)
Definition truthy (v : json) : bool :=
  match v with
  | JNull => false
  | JBool b => b
  | JInt n => negb (Z.eqb n 0)
  | JFloat q => negb (Qeq_bool q (Qmake 0 1))
  | JStr s => negb (String.eqb s "")
  | JList items => match items with [] => false | _ => true end
  | JDict fields => match fields with [] => false | _ => true end
  end.

Fixpoint dict_get (key : string) (fields : list (string * json)) : option json :=
  match fields with
  | [] => None
  | (k, v) :: rest => if String.eqb key k then Some v else dict_get key rest
  end.

(** [needle in hay] on two [str]: substring search. *)
Fixpoint is_substring (needle hay : string) : bool :=
  if String.prefix needle hay then true
  else match hay with
       | EmptyString => false
       | String _ hay' => is_substring needle hay'
       end.

Definition str_equals (key : string) (v : json) : bool :=
  match v with
  | JStr s => String.eqb key s
  | _ => false
  end.

(** [key in v] for a [str] key. *)
Definition contains (key : string) (v : json) : outcome bool :=
  match v with
  | JDict fields => Returns (bool_decide (is_Some (dict_get key fields)))
  | JList items => Returns (existsb (str_equals key) items)
  | JStr s => Returns (is_substring key s)
  | _ => Raises (Exn "TypeError"
                   ("argument of type '" ++ type_name v ++ "' is not iterable"))
  end.

(** [v[key]] for a [str] key. *)
Definition getitem (v : json) (key : string) : outcome json :=
  match v with
  | JDict fields =>
      match dict_get key fields with
      | Some x => Returns x
      | None => Raises (Exn "KeyError" ("'" ++ key ++ "'"))
      end
  | JList _ =>
      Raises (Exn "TypeError" "list indices must be integers or slices, not str")
  | JStr _ => Raises (Exn "TypeError" "string indices must be integers, not 'str'")
  | _ => Raises (Exn "TypeError"
                   ("'" ++ type_name v ++ "' object is not subscriptable"))
  end.

(** [hosts if isinstance(hosts, list) else [hosts]]. *)
Definition as_host_list (hosts : json) : list json :=
  match hosts with
  | JList items => items
  | _ => [hosts]
  end.

(** ** The collaborators of the view *)

(** The incoming request, as the view observes it: what
    [request.get_json()] does.  Called with its defaults, Flask parses the
    body and returns the value ([None] for the JSON document [null]); when
    the body is not valid JSON it calls [on_json_loading_failed], which
    raises [BadRequest]. *)
Inductive request : Type :=
| JsonBody (data : json)
| BadBody (e : exn).

(** The [(body, status)] pair a view returns; [jsonify(...)] alone is
    status 200. *)
Record response := Response { status : Z; body : json }.

(** The interface [ssl_api.py] imports from [ssl_checker]: a constructor and
    one method on the instance.  Either may raise; the method may update the
    instance it is called on.  [result_json] is how [jsonify] renders what
    the method returned (it raises [TypeError] on an object it cannot
    serialise). *)
Class Checker := {
  checker : Type;
  result : Type;
  SSLChecker_init : outcome checker;
  get_certificate_info : checker -> json -> outcome result * checker;
  result_json : result -> outcome json
}.

(** Calls into the checker, in program order. *)
Inductive event : Type :=
| EvConstruct
| EvProbeBegin (host : json)
| EvProbeEnd (host : json).

(** The events of probing [hosts] one after the other. *)
Definition probe_events (hosts : list json) : list event :=
  flat_map (fun h => [EvProbeBegin h; EvProbeEnd h]) hosts.

(** Probes begun and not yet ended, after one more event. *)
Definition in_flight_after (n : nat) (ev : event) : nat :=
  match ev with
  | EvConstruct => n
  | EvProbeBegin _ => S n
  | EvProbeEnd _ => Nat.pred n
  end.

(** The largest number of probes in flight at any point of [evs], starting
    with [n] in flight. *)
Fixpoint peak_in_flight (n : nat) (evs : list event) : nat :=
  match evs with
  | [] => n
  | ev :: rest => Nat.max n (peak_in_flight (in_flight_after n ev) rest)
  end.

(** Two probes of the batch overlap somewhere in [evs]. *)
Definition concurrent (evs : list event) : bool :=
  (2 <=? peak_in_flight 0 evs)%nat.

Section Handler.
Context `{Checker}.

(** The objects allocated so far (by address) and the calls made so far. *)
Record world := World { heap : gmap nat checker; trace : list event }.

(** A computation reads and updates the world and returns or raises; the
    effects performed before a [raise] stay. *)
Definition M (A : Type) : Type := world -> outcome A * world.

Definition ret {A} (a : A) : M A := fun w => (Returns a, w).
Definition raise {A} (e : exn) : M A := fun w => (Raises e, w).
Definition bind {A B} (m : M A) (k : A -> M B) : M B :=
  fun w => match m w with
           | (Returns a, w') => k a w'
           | (Raises e, w') => (Raises e, w')
           end.
Definition lift {A} (o : outcome A) : M A := fun w => (o, w).
(** [try: m except Exception as e: h e].  [Raises] carries instances of
    [Exception] only, so the handler sees every one of them; [SystemExit],
    [KeyboardInterrupt] and [GeneratorExit], which the clause would let
    through, are not modelled. *)
Definition try_except {A} (m : M A) (h : exn -> M A) : M A :=
  fun w => match m w with
           | (Returns a, w') => (Returns a, w')
           | (Raises e, w') => h e w'
           end.

Notation "x <~ m ;; k" := (bind m (fun x => k))
  (at level 100, m at next level, right associativity).

(** [request.get_json()]. *)
Definition get_json (req : request) : M json :=
  match req with
  | JsonBody data => ret data
  | BadBody e => raise e
  end.

(** [SSLChecker()]: a new object at an address not in use. *)
Definition new_SSLChecker : M nat :=
  fun w =>
    match SSLChecker_init with
    | Returns s =>
        let l := fresh (dom (heap w)) in
        (Returns l, World (<[l := s]> (heap w)) (trace w ++ [EvConstruct]))
    | Raises e => (Raises e, World (heap w) (trace w ++ [EvConstruct]))
    end.

(** [ssl_checker.get_certificate_info(host)] on the object at [l]: the
    call begins, runs on that object, and ends by returning or raising.
    The view only calls it on the address [new_SSLChecker] returned, which
    is bound; the last case is the unbound name. *)
Definition call_get_certificate_info (l : nat) (host : json) : M result :=
  fun w =>
    match heap w !! l with
    | Some s =>
        let '(r, s') := get_certificate_info s host in
        (r, World (<[l := s']> (heap w))
                  (trace w ++ [EvProbeBegin host; EvProbeEnd host]))
    | None => (Raises (Exn "NameError" "name 'ssl_checker' is not defined"), w)
    end.

(** The [for host in hosts] loop; [results] is the list built so far. *)
Fixpoint probe_loop (l : nat) (hosts : list json) (results : list result)
  : M (list result) :=
  match hosts with
  | [] => ret results
  | host :: rest =>
      r <~ call_get_certificate_info l host ;;
      probe_loop l rest (results ++ [r])
  end.

(** [jsonify] on a list of results: the first one it cannot serialise
    raises. *)
Fixpoint jsonify_results (rs : list result) : outcome (list json) :=
  match rs with
  | [] => Returns []
  | r :: rest =>
      match result_json r with
      | Returns j =>
          match jsonify_results rest with
          | Returns js => Returns (j :: js)
          | Raises e => Raises e
          end
      | Raises e => Raises e
      end
  end.

Definition missing_hosts_body : json :=
  JDict [("error", JStr "Missing hosts in request body")].

Definition success_body (results : list json) : json :=
  JDict [("success", JBool true); ("results", JList results)].

Definition failure_body (e : exn) : json :=
  JDict [("success", JBool false); ("error", JStr (exc_str e))].

(** [not data or 'hosts' not in data]; [or] evaluates its right operand
    only when the left one is false. *)
Definition hosts_missing (data : json) : M bool :=
  if negb (truthy data) then ret true
  else present <~ lift (contains "hosts" data) ;; ret (negb present).

(** The body of the [try] block. *)
Definition check_ssl_try (req : request) : M response :=
  data <~ get_json req ;;
  missing <~ hosts_missing data ;;
  if missing then ret (Response 400 missing_hosts_body)
  else
    hosts <~ lift (getitem data "hosts") ;;
    let hosts := as_host_list hosts in
    ssl_checker <~ new_SSLChecker ;;
    results <~ probe_loop ssl_checker hosts [] ;;
    rendered <~ lift (jsonify_results results) ;;
    ret (Response 200 (success_body rendered)).

Definition check_ssl (req : request) : M response :=
  try_except (check_ssl_try req)
    (fun e => ret (Response 500 (failure_body e))).

(** *** The view as a function of the request

    The loop and the view once more, without the store: what a batch
    returns, the final state of the checker, the number of calls made;
    and for a request the response, the events of the invocation and the
    object it leaves behind.  [check_ssl_handled] below relates the two. *)

Fixpoint probes (s : checker) (hosts : list json)
  : outcome (list result) * checker * nat :=
  match hosts with
  | [] => (Returns [], s, 0%nat)
  | h :: rest =>
      match get_certificate_info s h with
      | (Returns r, s') =>
          let '(o, s'', n) := probes s' rest in
          (match o with
           | Returns rs => Returns (r :: rs)
           | Raises e => Raises e
           end, s'', S n)
      | (Raises e, s') => (Raises e, s', 1%nat)
      end
  end.

Definition handled_batch (hosts : list json)
  : response * list event * option checker :=
  match SSLChecker_init with
  | Raises e => (Response 500 (failure_body e), [EvConstruct], None)
  | Returns s =>
      let '(o, s', n) := probes s hosts in
      let evs := EvConstruct :: probe_events (take n hosts) in
      match o with
      | Raises e => (Response 500 (failure_body e), evs, Some s')
      | Returns rs =>
          match jsonify_results rs with
          | Raises e => (Response 500 (failure_body e), evs, Some s')
          | Returns js => (Response 200 (success_body js), evs, Some s')
          end
      end
  end.

Definition handled (req : request) : response * list event * option checker :=
  match req with
  | BadBody e => (Response 500 (failure_body e), [], None)
  | JsonBody data =>
      if negb (truthy data) then (Response 400 missing_hosts_body, [], None)
      else
        match contains "hosts" data with
        | Raises e => (Response 500 (failure_body e), [], None)
        | Returns false => (Response 400 missing_hosts_body, [], None)
        | Returns true =>
            match getitem data "hosts" with
            | Raises e => (Response 500 (failure_body e), [], None)
            | Returns hosts => handled_batch (as_host_list hosts)
            end
        end
  end.

(** The store after an invocation that left [obj] behind. *)
Definition allocated (obj : option checker) (h : gmap nat checker)
  : gmap nat checker :=
  match obj with
  | Some s => <[fresh (dom h) := s]> h
  | None => h
  end.

End Handler.

(** ** The checker of the specification

    [ssl_checker.py] is not among the sources; the view only calls it.  The
    definitions of this module follow the specification's description of the
    prober (sections 3, 4.1 and 7). *)

Module Prober.

(** Modelled from the spec: the statuses a [ProbeResult] can carry
    (section 3). *)
Inductive Status : Type :=
| ok | expiring_soon | expired | self_signed
| unreachable | handshake_error | timeout.

(** Modelled from the spec: the [CertificateInfo] value object of section 3,
    field by field (times in seconds). *)
Record CertificateInfo := {
  subject : string;
  issuer : string;
  serial_number : string;
  not_before : Z;
  not_after : Z;
  signature_algorithm : string;
  subject_alt_names : list string;
  public_key_algorithm : string;
  public_key_size : Z
}.

(** Modelled from the spec: the [ProbeResult] value object of section 3. *)
Record ProbeResult := {
  host : json;
  status : Status;
  certificate : option CertificateInfo;
  error : option string
}.

(** Modelled from the spec: classification as the pure function of
    [(CertificateInfo, now, threshold)] section 4.1 requires and the
    examples of section 8 exercise: [expired] when the time is past
    not-after, else [expiring_soon] when not-after minus the time is below
    the threshold, else [ok].  The first rule is tried first: section 8
    has not-after one second ago classify as [expired], where the second
    rule applies as well. *)
Definition classify (c : CertificateInfo) (now threshold : Z) : Status :=
  if (not_after c <? now)%Z then expired
  else if (not_after c - now <? threshold)%Z then expiring_soon
  else ok.

(** Modelled from the spec: the [self_signed] rule of section 4.1, issuer
    equal to subject and no trusted chain established.  Whether a chain was
    established is a fact of the connection, not a field of the
    certificate, so the rule is applied by the probe, in its listed place
    after the two expiry rules, to what [classify] leaves as [ok]. *)
Definition reported_status (c : CertificateInfo) (chain_trusted : bool)
    (now threshold : Z) : Status :=
  match classify c now threshold with
  | ok =>
      if String.eqb (issuer c) (subject c) && negb chain_trusted
      then self_signed else ok
  | s => s
  end.

(** Modelled from the spec: what one TLS connection attempt ends in
    (section 4.1: success with the peer's certificate, and whether a
    trusted chain was established for it, or a network, handshake or
    timeout error). *)
Inductive connection : Type :=
| Connected (c : CertificateInfo) (chain_trusted : bool)
| ConnectionRefused (msg : string)
| HandshakeFailed (c : option CertificateInfo) (msg : string)
| TimedOut (msg : string).

(** Durations in seconds, the unit of [not_after] and of the clock. *)
Definition seconds_per_day : Z := 86400.
Definition days (n : Z) : Z := n * seconds_per_day.

Section Environment.
(** The environment of a checker: the outcome of its [k]-th connection
    attempt, the clock reading at that attempt, and the configured
    expiry threshold. *)
Variable tls_connect : nat -> json -> connection.
Variable clock : nat -> Z.
Variable threshold : Z.

(** Modelled from the spec: the per-host probe of section 4.1; every
    error is recorded as the corresponding status, nothing is raised to
    the caller. *)
Definition probe (k : nat) (h : json) : ProbeResult :=
  match tls_connect k h with
  | Connected c chain_trusted =>
      {| host := h;
         status := reported_status c chain_trusted (clock k) threshold;
         certificate := Some c; error := None |}
  | ConnectionRefused msg =>
      {| host := h; status := unreachable;
         certificate := None; error := Some msg |}
  | HandshakeFailed c msg =>
      {| host := h; status := handshake_error;
         certificate := c; error := Some msg |}
  | TimedOut msg =>
      {| host := h; status := timeout;
         certificate := None; error := Some msg |}
  end.

(** Modelled from the spec: the status names of section 3, as they are
    written there. *)
Definition status_name (s : Status) : string :=
  match s with
  | ok => "ok"
  | expiring_soon => "expiring_soon"
  | expired => "expired"
  | self_signed => "self_signed"
  | unreachable => "unreachable"
  | handshake_error => "handshake_error"
  | timeout => "timeout"
  end.

(** Modelled from the spec: the JSON form of a [CertificateInfo], one
    member per field of section 3. *)
Definition certificate_json (c : CertificateInfo) : json :=
  JDict [("subject", JStr (subject c));
         ("issuer", JStr (issuer c));
         ("serial_number", JStr (serial_number c));
         ("not_before", JInt (not_before c));
         ("not_after", JInt (not_after c));
         ("signature_algorithm", JStr (signature_algorithm c));
         ("subject_alt_names", JList (JStr <$> subject_alt_names c));
         ("public_key_algorithm", JStr (public_key_algorithm c));
         ("public_key_size", JInt (public_key_size c))].

(** Modelled from the spec: the JSON form of a [ProbeResult], one member
    per field of section 3 ([null] for an absent one). *)
Definition probe_result_json (r : ProbeResult) : json :=
  JDict [("host", host r);
         ("status", JStr (status_name (status r)));
         ("certificate", from_option certificate_json JNull (certificate r));
         ("error", from_option JStr JNull (error r))].

(** Modelled from the spec: the [SSLChecker] the view imports.  An
    instance counts the connection attempts it has made; construction
    and probing never raise, and a result is plain data. *)
Definition spec_checker : Checker :=
  {| checker := nat;
     result := ProbeResult;
     SSLChecker_init := Returns 0%nat;
     get_certificate_info := fun k h => (Returns (probe k h), S k);
     result_json := fun r => Returns (probe_result_json r) |}.

End Environment.

End Prober.

(** ** Concrete requests and environments *)

(** The body [{"hosts": hosts}]. *)
Definition hosts_request (hosts : json) : request :=
  JsonBody (JDict [("hosts", hosts)]).

(** A body that is not JSON, for which [get_json] raises [BadRequest];
    [str(e)] is the status line followed by werkzeug's description. *)
Definition bad_request_text : string :=
  "400 Bad Request: The browser (or proxy) sent a request that this server could not understand.".

Definition invalid_json_request : request :=
  BadBody (Exn "BadRequest" bad_request_text).

Module Examples.
Import Prober.

Definition example_now : Z := 1700000000.

Definition example_cert : CertificateInfo :=
  {| subject := "CN=example.com";
     issuer := "CN=Example CA";
     serial_number := "0A";
     not_before := example_now - days 10;
     not_after := example_now + days 100;
     signature_algorithm := "sha256WithRSAEncryption";
     subject_alt_names := ["example.com"; "www.example.com"];
     public_key_algorithm := "RSA";
     public_key_size := 2048 |}.

(** [down.example] refuses the connection, [slow.example] never answers,
    every other host presents [example_cert]. *)
Definition example_tls (k : nat) (h : json) : connection :=
  if str_equals "down.example" h then ConnectionRefused "connection refused"
  else if str_equals "slow.example" h then TimedOut "timed out"
  else Connected example_cert true.

(** The same network with every host up. *)
Definition healthy_tls (k : nat) (h : json) : connection :=
  Connected example_cert true.

Definition example_clock (k : nat) : Z := example_now.

Definition example_checker : Checker :=
  spec_checker example_tls example_clock (days 30).

Definition healthy_checker : Checker :=
  spec_checker healthy_tls example_clock (days 30).

(** A checker whose method lets a name-resolution error escape. *)
Definition brittle_checker : Checker :=
  {| checker := unit;
     result := json;
     SSLChecker_init := Returns ();
     get_certificate_info := fun s h =>
       (if str_equals "down.example" h
        then Raises (Exn "gaierror" "[Errno -2] Name or service not known")
        else Returns (JDict [("host", h); ("status", JStr "ok")]), s);
     result_json := fun r => Returns r |}.

Definition three_hosts : json :=
  JList [JStr "example.com"; JStr "down.example"; JStr "slow.example"].

(** A checker whose results are objects [jsonify] cannot serialise. *)
Definition opaque_checker : Checker :=
  {| checker := nat;
     result := json;
     SSLChecker_init := Returns 0;
     get_certificate_info := fun k h => (Returns h, S k);
     result_json := fun r =>
       Raises (Exn "TypeError"
                 "Object of type CertificateInfo is not JSON serializable") |}.

(** A checker whose constructor raises. *)
Definition unavailable_checker : Checker :=
  {| checker := unit;
     result := json;
     SSLChecker_init := Raises (Exn "RuntimeError" "no SSL context available");
     get_certificate_info := fun s h => (Returns h, s);
     result_json := fun r => Returns r |}.

End Examples.

(** * Properties *)

(** Unfold the view down to the monad's operations. *)
Ltac run_view :=
  unfold check_ssl, check_ssl_try, hosts_missing, get_json;
  unfold try_except, bind, ret, raise, lift; simpl.

Section HandlerFacts.
Context `{Checker}.

Lemma probes_all_calls (s : checker) (hosts : list json) (rs : list result) :
  (probes s hosts).1.1 = Returns rs →
  (probes s hosts).2 = length hosts ∧ length rs = length hosts.
Proof.
  revert s rs. induction hosts as [|h rest IH]; intros s rs; simpl.
  - intros [= <-]. done.
  - destruct (get_certificate_info s h) as [[r|e] s']; simpl; [|done].
    specialize (IH s'). destruct (probes s' rest) as [[[rs'|e] s''] n]; simpl in *;
      [|done].
    intros [= <-]. destruct (IH rs' eq_refl). simpl. lia.
Qed.

(** The loop on the store is [probes] on the object at [l]. *)
Lemma probe_loop_probes (l : nat) (hosts : list json) (acc : list result)
    (w : world) (s : checker) :
  heap w !! l = Some s →
  probe_loop l hosts acc w =
    (match (probes s hosts).1.1 with
     | Returns rs => Returns (acc ++ rs)%list
     | Raises e => Raises e
     end,
     World (<[l := (probes s hosts).1.2]> (heap w))
           (trace w ++ probe_events (take (probes s hosts).2 hosts))).
Proof.
  revert acc w s. induction hosts as [|h rest IH]; intros acc w s Hl; simpl.
  - unfold ret. rewrite !app_nil_r, insert_id by done. by destruct w.
  - unfold bind, call_get_certificate_info. rewrite Hl.
    destruct (get_certificate_info s h) as [[r|e] s'] eqn:Hcall; simpl.
    + rewrite (IH _ _ s') by (simpl; apply lookup_insert_eq).
      destruct (probes s' rest) as [[o s''] n]; simpl.
      rewrite insert_insert_eq, <- !app_assoc. simpl.
      destruct o; [by rewrite <- app_assoc|done].
    + destruct rest; done.
Qed.

Lemma handled_batch_run (hosts : list json) (w : world) :
  try_except
    (bind new_SSLChecker (fun ssl_checker =>
     bind (probe_loop ssl_checker hosts []) (fun results =>
     bind (lift (jsonify_results results)) (fun rendered =>
     ret (Response 200 (success_body rendered))))))
    (fun e => ret (Response 500 (failure_body e))) w =
  (Returns (handled_batch hosts).1.1,
   World (allocated (handled_batch hosts).2 (heap w))
         (trace w ++ (handled_batch hosts).1.2)).
Proof.
  unfold try_except, bind, new_SSLChecker, handled_batch.
  destruct SSLChecker_init as [s|e]; simpl; [|done].
  rewrite (probe_loop_probes _ _ _ _ s) by (simpl; apply lookup_insert_eq).
  destruct (probes s hosts) as [[o s'] n]; simpl.
  rewrite insert_insert_eq, <- app_assoc. simpl.
  destruct o as [rs|e]; simpl; [|done].
  unfold lift. destruct (jsonify_results rs); done.
Qed.

(** The view on the store is [handled]: it always returns a response,
    appends the invocation's events and leaves at most one new object. *)
Lemma check_ssl_handled (req : request) (w : world) :
  check_ssl req w =
    (Returns (handled req).1.1,
     World (allocated (handled req).2 (heap w)) (trace w ++ (handled req).1.2)).
Proof.
  destruct req as [data|e]; simpl.
  - destruct (truthy data) eqn:Ht; simpl.
    + destruct (contains "hosts" data) as [[|]|e] eqn:Hc; simpl.
      * destruct (getitem data "hosts") as [hv|e] eqn:Hg; simpl.
        -- rewrite <- handled_batch_run. run_view. by rewrite Ht, Hc, Hg.
        -- run_view. rewrite Ht, Hc, Hg. simpl. rewrite app_nil_r. by destruct w.
      * run_view. rewrite Ht, Hc. simpl. rewrite app_nil_r. by destruct w.
      * run_view. rewrite Ht, Hc. simpl. rewrite app_nil_r. by destruct w.
    + run_view. rewrite Ht. simpl. rewrite app_nil_r. by destruct w.
  - run_view. rewrite app_nil_r. by destruct w.
Qed.

Lemma world_unchanged (w : world) :
  World (allocated None (heap w)) (trace w ++ []) = w.
Proof. simpl. rewrite app_nil_r. by destruct w. Qed.

(** A body that is an object with a [hosts] member passes the request
    checks. *)
Lemma handled_hosts (fields : list (string * json)) (hv : json) :
  dict_get "hosts" fields = Some hv →
  handled (JsonBody (JDict fields)) = handled_batch (as_host_list hv).
Proof.
  intros Hget. unfold handled.
  assert (truthy (JDict fields) = true) as ->
    by (destruct fields; [discriminate|done]).
  unfold contains, getitem. rewrite Hget, bool_decide_eq_true_2 by eauto.
  done.
Qed.

Lemma peak_in_flight_probes (hosts : list json) :
  peak_in_flight 0 (EvConstruct :: probe_events hosts) ≤ 1.
Proof.
  simpl. induction hosts as [|h rest IH]; simpl in *; lia.
Qed.

(** Entry [i] of a batch's results is what the method returned for host
    [i], in some state of the checker. *)
Lemma probes_lookup (s : checker) (hosts : list json) (rs : list result)
    (i : nat) (h : json) :
  (probes s hosts).1.1 = Returns rs →
  hosts !! i = Some h →
  ∃ (si si' : checker) (r : result),
    get_certificate_info si h = (Returns r, si') ∧ rs !! i = Some r.
Proof.
  revert s rs i. induction hosts as [|h0 rest IH]; intros s rs i; [done|].
  simpl. destruct (get_certificate_info s h0) as [[r0|e] s0] eqn:Hcall;
    simpl; [|done].
  specialize (IH s0). destruct (probes s0 rest) as [[[rs'|e] s1] n];
    simpl in *; [|done].
  intros [= <-]. destruct i as [|i]; simpl.
  - intros [= <-]. by exists s, s0, r0.
  - intros Hi. by apply IH.
Qed.

Lemma jsonify_results_lookup (rs : list result) (js : list json)
    (i : nat) (r : result) :
  jsonify_results rs = Returns js →
  rs !! i = Some r →
  ∃ j : json, result_json r = Returns j ∧ js !! i = Some j.
Proof.
  revert js i. induction rs as [|r0 rest IH]; intros js i; [done|].
  simpl. destruct (result_json r0) as [j0|e] eqn:Hj; [|done].
  destruct (jsonify_results rest) as [js'|e]; [|done].
  intros [= <-]. destruct i as [|i]; simpl.
  - intros [= <-]. by exists j0.
  - intros Hi. by apply IH.
Qed.

Lemma jsonify_results_length (rs : list result) (js : list json) :
  jsonify_results rs = Returns js → length js = length rs.
Proof.
  revert js. induction rs as [|r0 rest IH]; intros js; simpl.
  - by intros [= <-].
  - destruct (result_json r0) as [j0|e]; [|done].
    destruct (jsonify_results rest) as [js'|e]; [|done].
    intros [= <-]. simpl. f_equal. by apply IH.
Qed.

(** A batch in which the method raises on [h], after returning for every
    host before it. *)
Lemma probes_raise (s s' s'' : checker) (before after : list json) (h : json)
    (rs : list result) (e : exn) :
  probes s before = (Returns rs, s', length before) →
  get_certificate_info s' h = (Raises e, s'') →
  probes s (before ++ h :: after) = (Raises e, s'', S (length before)).
Proof.
  revert s rs. induction before as [|b bs IH]; intros s rs; simpl.
  - intros [= <- <-] Hcall. by rewrite Hcall.
  - destruct (get_certificate_info s b) as [[r|e0] s0]; [|done].
    specialize (IH s0). destruct (probes s0 bs) as [[o s1] n].
    destruct o as [rs'|e0]; [|done].
    intros [= <- <- ->] Hcall. by rewrite (IH rs' eq_refl Hcall).
Qed.

End HandlerFacts.

(** ** The view over the checker of the specification *)

Section ProberFacts.
Variable tls_connect : nat -> json -> Prober.connection.
Variable clock : nat -> Z.
Variable threshold : Z.


(** The [k]-th attempt of the checker serves host [k] of the batch. *)
Lemma spec_probes (k : nat) (hosts : list json) :
  @probes (Prober.spec_checker tls_connect clock threshold) k hosts =
    (Returns (imap (fun i h => Prober.probe tls_connect clock threshold (k + i) h)
                hosts),
     k + length hosts, length hosts).
Proof.
  revert k. induction hosts as [|h rest IH]; intros k; simpl.
  - by rewrite Nat.add_0_r.
  - rewrite IH. simpl. rewrite Nat.add_0_r, Nat.add_succ_r. do 4 f_equal.
    apply imap_ext. intros i x _. simpl. f_equal. lia.
Qed.

Lemma spec_jsonify (rs : list Prober.ProbeResult) :
  @jsonify_results (Prober.spec_checker tls_connect clock threshold) rs =
    Returns (Prober.probe_result_json <$> rs).
Proof. induction rs as [|r rest IH]; simpl; [done|]. by rewrite IH. Qed.

Lemma spec_handled_batch (hosts : list json) :
  @handled_batch (Prober.spec_checker tls_connect clock threshold) hosts =
    (Response 200
       (success_body
          (Prober.probe_result_json <$>
             imap (Prober.probe tls_connect clock threshold) hosts)),
     EvConstruct :: probe_events hosts, Some (length hosts)).
Proof.
  unfold handled_batch. simpl. rewrite spec_probes. simpl.
  by rewrite spec_jsonify, firstn_all.
Qed.

End ProberFacts.

(** ** One result per host, in input order *)



(** ** Isolation of probe failures *)

(** C2.  Probe failures are data and stay with their host: run the same
    request against two environments; both batches answer 200 with one
    result per host, and wherever the two environments treat host [i] alike
    the two results for host [i] are equal, whatever happens to the other
    hosts of the batch. *)
Theorem probe_failures_are_isolated
    (tls1 tls2 : nat -> json -> Prober.connection) (clock1 clock2 : nat -> Z)
    (threshold : Z) (fields : list (string * json)) (hv : json)
    (w1 : @world (Prober.spec_checker tls1 clock1 threshold))
    (w2 : @world (Prober.spec_checker tls2 clock2 threshold)) :
  dict_get "hosts" fields = Some hv →
  ∃ rs1 rs2 : list json,
    (check_ssl (JsonBody (JDict fields)) w1).1 =
      Returns (Response 200 (success_body rs1))
    ∧ (check_ssl (JsonBody (JDict fields)) w2).1 =
      Returns (Response 200 (success_body rs2))
    ∧ length rs1 = length (as_host_list hv)
    ∧ length rs2 = length (as_host_list hv)
    ∧ ∀ (i : nat) (h : json),
        as_host_list hv !! i = Some h →
        tls1 i h = tls2 i h → clock1 i = clock2 i →
        rs1 !! i = rs2 !! i.
Proof.
  intros Hget.
  eexists _, _. rewrite !check_ssl_handled, !(handled_hosts _ _ Hget).
  rewrite !spec_handled_batch. simpl.
  split; [reflexivity|]. split; [reflexivity|].
  rewrite !length_fmap, !length_imap. split; [done|]. split; [done|].
  intros i h Hi Htls Hclock.
  rewrite !list_lookup_fmap, !list_lookup_imap, Hi. simpl.
  unfold Prober.probe. by rewrite Htls, Hclock.
Qed.

(** With [down.example] refusing and [slow.example] timing out, or with
    every host up, the two batches agree on [example.com]. *)
Lemma probe_failures_are_isolated_witness :
  ∃ rs1 rs2 : list json,
    (@check_ssl Examples.example_checker
       (hosts_request Examples.three_hosts) (World ∅ [])).1 =
      Returns (Response 200 (success_body rs1))
    ∧ (@check_ssl Examples.healthy_checker
         (hosts_request Examples.three_hosts) (World ∅ [])).1 =
      Returns (Response 200 (success_body rs2))
    ∧ length rs1 = 3 ∧ length rs2 = 3
    ∧ rs1 !! 0 = rs2 !! 0.
Proof.
  destruct (probe_failures_are_isolated Examples.example_tls
              Examples.healthy_tls Examples.example_clock
              Examples.example_clock (Prober.days 30)
              [("hosts", Examples.three_hosts)] Examples.three_hosts
              (World ∅ []) (World ∅ []) eq_refl)
    as (rs1 & rs2 & H1 & H2 & Hl1 & Hl2 & Hiso).
  exists rs1, rs2. repeat split; try assumption.
  exact (Hiso 0 (JStr "example.com") eq_refl eq_refl eq_refl).
Defined.

(** ** Request-shape errors *)

(** C3, as stated, fails: a body that is not valid JSON makes [get_json]
    raise, and the [except] clause answers 500 with the exception's text,
    not 400 with the missing-hosts message. *)
Lemma check_ssl_invalid_json_is_500 :
  (@check_ssl Examples.example_checker invalid_json_request (World ∅ [])).1 =
    Returns (Response 500
               (JDict [("success", JBool false);
                       ("error", JStr bad_request_text)]))
  ∧ (@check_ssl Examples.example_checker invalid_json_request (World ∅ [])).1 ≠
    Returns (Response 400 missing_hosts_body).
Proof. split; [reflexivity|discriminate]. Qed.

(** C3, amended.  A body that parses to an object without a [hosts] member
    (the empty object included) or to [null] is answered 400 with exactly
    the missing-hosts body, and nothing else happens; a body for which
    [get_json] raises is answered 500 with the exception's text. *)
Theorem check_ssl_missing_hosts `{Checker}
    (fields : list (string * json)) (e : exn) (w : world) :
  dict_get "hosts" fields = None →
  check_ssl (JsonBody (JDict fields)) w =
    (Returns (Response 400 missing_hosts_body), w)
  ∧ check_ssl (JsonBody JNull) w =
    (Returns (Response 400 missing_hosts_body), w)
  ∧ check_ssl (BadBody e) w = (Returns (Response 500 (failure_body e)), w).
Proof.
  intros Hget. rewrite !check_ssl_handled.
  assert (handled (JsonBody (JDict fields)) =
          (Response 400 missing_hosts_body, [], None)) as ->.
  { unfold handled, contains. rewrite Hget.
    rewrite bool_decide_eq_false_2 by (intros [x Hx]; discriminate).
    by destruct (negb (truthy (JDict fields))). }
  simpl handled. cbn [fst snd]. by rewrite !world_unchanged.
Qed.

(** The empty object [{}]. *)
Lemma check_ssl_missing_hosts_witness :
  @check_ssl Examples.example_checker (JsonBody (JDict [])) (World ∅ []) =
    (Returns (Response 400 missing_hosts_body), World ∅ [])
  ∧ @check_ssl Examples.example_checker (JsonBody JNull) (World ∅ []) =
    (Returns (Response 400 missing_hosts_body), World ∅ [])
  ∧ @check_ssl Examples.example_checker invalid_json_request (World ∅ []) =
    (Returns (Response 500 (failure_body (Exn "BadRequest" bad_request_text))),
     World ∅ []).
Proof.
  exact (@check_ssl_missing_hosts Examples.example_checker []
           (Exn "BadRequest" bad_request_text)
           (World ∅ []) eq_refl).
Defined.

(** ** A single host instead of a list *)



(** ** Classification of a retrieved certificate *)



(** ** Internal failures *)

(** C6.  Whatever is raised inside the [try] block, the view answers 500
    with a body holding [success: false] and the exception's text, and a
    response built inside the block is returned as it is.  Over the checker
    of the specification a 500 is never a host's doing: it is only produced
    before any checker is constructed or any host probed. *)
Theorem check_ssl_internal_failure :
  (∀ (C : Checker) (req : request) (w : world),
     match (check_ssl_try req w).1 with
     | Raises e =>
         ∃ fields : list (string * json),
           check_ssl req w =
             (Returns (Response 500 (JDict fields)), (check_ssl_try req w).2)
           ∧ dict_get "success" fields = Some (JBool false)
           ∧ dict_get "error" fields = Some (JStr (exc_str e))
     | Returns r => check_ssl req w = (Returns r, (check_ssl_try req w).2)
     end)
  ∧ (∀ (tls : nat -> json -> Prober.connection) (clock : nat -> Z)
       (threshold : Z) (req : request)
       (w : @world (Prober.spec_checker tls clock threshold)),
       ∃ r : response,
         (check_ssl req w).1 = Returns r
         ∧ (status r ≠ 500%Z ∨ (check_ssl req w).2 = w)).
Proof.
  split.
  - intros C req w. unfold check_ssl, try_except.
    destruct (check_ssl_try req w) as [[r|e] w']; simpl; [done|].
    by eexists.
  - intros tls clock threshold req w. rewrite check_ssl_handled.
    eexists; split; [reflexivity|].
    destruct req as [data|e]; simpl.
    + destruct (truthy data); simpl; [|by left].
      destruct (contains "hosts" data) as [[|]|e]; simpl.
      * destruct (getitem data "hosts") as [hv|e]; simpl.
        -- rewrite spec_handled_batch. by left.
        -- right. apply world_unchanged.
      * by left.
      * right. apply world_unchanged.
    + right. apply world_unchanged.
Qed.

(** ** No probing on a rejected request *)

(** C7.  A request answered 400 has constructed no [SSLChecker] and probed
    no host: the store and the trace are as they were. *)
Theorem check_ssl_rejects_before_probing `{Checker}
    (req : request) (w w' : world) (r : response) :
  check_ssl req w = (Returns r, w') →
  status r = 400%Z →
  w' = w ∧ trace w' = trace w ∧ heap w' = heap w.
Proof.
  rewrite check_ssl_handled. intros [= <- <-] H400.
  assert ((handled req).1.2 = [] ∧ (handled req).2 = None) as [Hevs Hobj].
  { revert H400. destruct req as [data|e]; simpl; [|done].
    destruct (truthy data); simpl; [|done].
    destruct (contains "hosts" data) as [[|]|e]; simpl; try done.
    destruct (getitem data "hosts") as [hv|e]; simpl; [|done].
    unfold handled_batch. destruct SSLChecker_init as [s|e]; [|done].
    destruct (probes s (as_host_list hv)) as [[[rs|e] s'] n]; [|done].
    destruct (jsonify_results rs); done. }
  rewrite Hevs, Hobj. simpl. rewrite app_nil_r. by destruct w.
Qed.

Lemma check_ssl_rejects_before_probing_witness :
  @check_ssl Examples.example_checker (JsonBody (JDict [])) (World ∅ []) =
    (Returns (Response 400 missing_hosts_body), World ∅ [])
  ∧ World (H := Examples.example_checker) ∅ [] = World ∅ []
  ∧ trace (World (H := Examples.example_checker) ∅ []) = []
  ∧ heap (World (H := Examples.example_checker) ∅ []) = ∅.
Proof.
  split; [reflexivity|].
  exact (@check_ssl_rejects_before_probing Examples.example_checker
           (JsonBody (JDict [])) (World ∅ []) (World ∅ [])
           (Response 400 missing_hosts_body) eq_refl eq_refl).
Defined.

(** ** State across requests *)

(** C8, as stated, fails: an invocation answered 400 constructs no
    [SSLChecker] at all. *)
Lemma check_ssl_rejected_constructs_nothing :
  (@check_ssl Examples.example_checker (JsonBody (JDict [])) (World ∅ [])).1 =
    Returns (Response 400 missing_hosts_body)
  ∧ trace (@check_ssl Examples.example_checker (JsonBody (JDict []))
             (World ∅ [])).2 = []
  ∧ heap (@check_ssl Examples.example_checker (JsonBody (JDict []))
            (World ∅ [])).2 = ∅.
Proof. repeat split. Qed.

(** C8, amended.  The view is stateless across requests: served from any
    two stores and histories, a request gets the same response, makes the
    same calls and leaves the same object behind, and the objects already
    in the store are left as they were.  An invocation whose body is an
    object carrying [hosts] constructs one [SSLChecker] of its own, before
    any probe and at an address that held nothing; one whose body is an
    object without [hosts] constructs none; and no invocation constructs
    more than one. *)
Theorem check_ssl_stateless `{Checker} (req : request) (w1 w2 : world) :
  ∃ (r : response) (evs : list event) (obj : option checker),
    check_ssl req w1 =
      (Returns r, World (allocated obj (heap w1)) (trace w1 ++ evs))
    ∧ check_ssl req w2 =
      (Returns r, World (allocated obj (heap w2)) (trace w2 ++ evs))
    ∧ (∀ (l : nat) (s : checker),
         heap w1 !! l = Some s → allocated obj (heap w1) !! l = Some s)
    ∧ heap w1 !! fresh (dom (heap w1)) = None
    ∧ (evs = [] ∧ obj = None
       ∨ ∃ hosts : list json, evs = EvConstruct :: probe_events hosts)
    ∧ match req with
      | JsonBody (JDict fields) =>
          match dict_get "hosts" fields with
          | Some hv =>
              (∃ n : nat,
                 evs = EvConstruct :: probe_events (take n (as_host_list hv)))
              ∧ match SSLChecker_init with
                | Returns _ => is_Some obj
                | Raises _ => obj = None
                end
          | None => evs = [] ∧ obj = None
          end
      | _ => True
      end.
Proof.
  exists (handled req).1.1, (handled req).1.2, (handled req).2.
  rewrite !check_ssl_handled.
  assert (heap w1 !! fresh (dom (heap w1)) = None) as Hfresh
    by (apply not_elem_of_dom, is_fresh).
  split; [done|]. split; [done|]. split; [|split; [done|]].
  { intros l s Hl. destruct (handled req).2 as [s0|]; simpl; [|done].
    rewrite lookup_insert_ne; [done|]. intros <-. by rewrite Hfresh in Hl. }
  assert (∀ hosts,
    (∃ n, (handled_batch hosts).1.2 = EvConstruct :: probe_events (take n hosts))
    ∧ match SSLChecker_init with
      | Returns _ => is_Some (handled_batch hosts).2
      | Raises _ => (handled_batch hosts).2 = None
      end) as Hbatch.
  { intros hosts. unfold handled_batch.
    destruct SSLChecker_init as [s|e]; simpl.
    - destruct (probes s hosts) as [[[rs|e] s'] n]; simpl.
      + destruct (jsonify_results rs); simpl; split; eauto.
      + split; eauto.
    - split; [by exists 0|done]. }
  split.
  - destruct req as [data|e]; simpl; [|by left].
    destruct (truthy data); simpl; [|by left].
    destruct (contains "hosts" data) as [[|]|e]; simpl; try by left.
    destruct (getitem data "hosts") as [hv|e]; simpl; [|by left].
    destruct (Hbatch (as_host_list hv)) as [[n Hevs] _]. right. eauto.
  - destruct req as [data|e]; [|done]. destruct data; try done.
    destruct (dict_get "hosts" fields) as [hv|] eqn:Hget.
    + rewrite (handled_hosts _ _ Hget). apply Hbatch.
    + unfold handled, contains. rewrite Hget.
      rewrite bool_decide_eq_false_2 by (intros [x Hx]; discriminate).
      by destruct (negb (truthy (JDict fields))).
Qed.

(** ** Order of execution of the probes *)

(** C9, as stated, fails: in a batch of two hosts the second probe begins
    only after the first has ended; at no point are two probes in flight. *)
Lemma two_probes_never_overlap :
  trace (@check_ssl Examples.example_checker
           (hosts_request (JList [JStr "a.example"; JStr "b.example"]))
           (World ∅ [])).2 =
    [EvConstruct;
     EvProbeBegin (JStr "a.example"); EvProbeEnd (JStr "a.example");
     EvProbeBegin (JStr "b.example"); EvProbeEnd (JStr "b.example")]
  ∧ peak_in_flight 0
      (trace (@check_ssl Examples.example_checker
                (hosts_request (JList [JStr "a.example"; JStr "b.example"]))
                (World ∅ [])).2) = 1
  ∧ concurrent
      (trace (@check_ssl Examples.example_checker
                (hosts_request (JList [JStr "a.example"; JStr "b.example"]))
                (World ∅ [])).2) = false.
Proof. repeat split. Qed.

(** C9, amended.  The probes of a batch run one at a time, in input order:
    the invocation's calls are the construction followed by the probes of a
    prefix of the host list, each ended before the next begins, so never
    more than one is in flight.  A batch answered 200 has probed every
    host, however many there are, and entry [i] of its result list is the
    rendering of what the method returned for host [i]. *)
Theorem probes_run_one_at_a_time `{Checker}
    (fields : list (string * json)) (hv : json) (w : world) :
  dict_get "hosts" fields = Some hv →
  ∃ (r : response) (evs : list event) (n : nat),
    (check_ssl (JsonBody (JDict fields)) w).1 = Returns r
    ∧ trace (check_ssl (JsonBody (JDict fields)) w).2 = (trace w ++ evs)%list
    ∧ evs = EvConstruct :: probe_events (take n (as_host_list hv))
    ∧ peak_in_flight 0 evs ≤ 1
    ∧ concurrent evs = false
    ∧ (status r ≠ 200%Z
       ∨ ∃ js : list json,
           body r = success_body js
           ∧ evs = EvConstruct :: probe_events (as_host_list hv)
           ∧ length js = length (as_host_list hv)
           ∧ ∀ (i : nat) (h : json),
               as_host_list hv !! i = Some h →
               ∃ (si si' : checker) (res : result) (j : json),
                 get_certificate_info si h = (Returns res, si')
                 ∧ result_json res = Returns j
                 ∧ js !! i = Some j).
Proof.
  intros Hget. rewrite check_ssl_handled, (handled_hosts _ _ Hget).
  set (hosts := as_host_list hv).
  assert (∀ n, concurrent (EvConstruct :: probe_events (take n hosts)) = false)
    as Hseq.
  { intros n. unfold concurrent. apply Nat.leb_gt.
    pose proof (peak_in_flight_probes (take n hosts)). lia. }
  unfold handled_batch. destruct SSLChecker_init as [s|e]; simpl.
  - destruct (probes s hosts) as [[o s'] n] eqn:Hprobes.
    destruct o as [rs|e]; simpl.
    + pose proof (probes_all_calls s hosts rs) as Hall.
      rewrite Hprobes in Hall. simpl in Hall. destruct (Hall eq_refl) as [-> Hlen].
      destruct (jsonify_results rs) as [js|e] eqn:Hjs; simpl.
      * eexists _, _, (length hosts). split; [done|]. split; [done|].
        split; [done|]. split; [apply peak_in_flight_probes|].
        split; [apply Hseq|]. right. exists js. split; [done|].
        rewrite firstn_all. split; [done|].
        split; [by rewrite (jsonify_results_length _ _ Hjs)|].
        intros i h Hi.
        destruct (probes_lookup s hosts rs i h) as (si & si' & res & Hcall & Hres);
          [by rewrite Hprobes|done|].
        destruct (jsonify_results_lookup _ _ _ _ Hjs Hres) as (j & Hj & Hji).
        by exists si, si', res, j.
      * eexists _, _, (length hosts). split; [done|]. split; [done|].
        split; [done|]. split; [apply peak_in_flight_probes|].
        split; [apply Hseq|]. by left.
    + eexists _, _, n. split; [done|]. split; [done|].
      split; [done|]. split; [apply peak_in_flight_probes|].
      split; [apply Hseq|]. by left.
  - eexists _, _, 0. split; [done|]. split; [done|].
    rewrite take_0. split; [done|]. split; [simpl; lia|]. split; [done|].
    by left.
Qed.

Lemma probes_run_one_at_a_time_witness :
  ∃ (r : response) (evs : list event) (n : nat),
    (@check_ssl Examples.example_checker
       (hosts_request Examples.three_hosts) (World ∅ [])).1 = Returns r
    ∧ trace (@check_ssl Examples.example_checker
               (hosts_request Examples.three_hosts) (World ∅ [])).2 = evs
    ∧ evs = EvConstruct :: probe_events (take n (as_host_list Examples.three_hosts))
    ∧ peak_in_flight 0 evs ≤ 1
    ∧ concurrent evs = false.
Proof.
  destruct (@probes_run_one_at_a_time Examples.example_checker
              [("hosts", Examples.three_hosts)] Examples.three_hosts
              (World ∅ []) eq_refl)
    as (r & evs & n & Hr & Htrace & Hevs & Hpeak & Hseq & _).
  exists r, evs, n. repeat split; assumption.
Defined.

(** ** The empty host list *)

(** C10.  The body [{"hosts": []}] is not rejected: with the checker
    constructed, the view answers 200 with an empty result list, and the
    construction is the only call it makes (no host is probed). *)
Theorem check_ssl_empty_hosts `{Checker} (w : world) (s : checker) :
  SSLChecker_init = Returns s →
  check_ssl (hosts_request (JList [])) w =
    (Returns (Response 200 (success_body [])),
     World (<[fresh (dom (heap w)) := s]> (heap w)) (trace w ++ [EvConstruct])).
Proof.
  intros Hs. unfold hosts_request.
  rewrite check_ssl_handled, (handled_hosts _ (JList [])) by done.
  unfold handled_batch. rewrite Hs. simpl. done.
Qed.

Lemma check_ssl_empty_hosts_witness :
  @check_ssl Examples.example_checker (hosts_request (JList [])) (World ∅ []) =
    (Returns (Response 200
                (JDict [("success", JBool true); ("results", JList [])])),
     World (<[fresh (dom (∅ : gmap nat nat)) := 0]> ∅) [EvConstruct]).
Proof.
  exact (@check_ssl_empty_hosts Examples.example_checker (World ∅ []) 0 eq_refl).
Defined.

(** ** What the [except] clause does to a batch *)

(** X1.  The view has no handler of its own around a probe: when the method
    raises on some host, the hosts after it are not probed and the whole
    batch is answered 500 with that exception's text. *)
Theorem check_ssl_probe_exception_aborts `{Checker}
    (fields : list (string * json)) (hv : json)
    (before after : list json) (h : json) (w : world)
    (s s' s'' : checker) (rs : list result) (e : exn) :
  dict_get "hosts" fields = Some hv →
  as_host_list hv = (before ++ h :: after)%list →
  SSLChecker_init = Returns s →
  probes s before = (Returns rs, s', length before) →
  get_certificate_info s' h = (Raises e, s'') →
  check_ssl (JsonBody (JDict fields)) w =
    (Returns (Response 500 (failure_body e)),
     World (<[fresh (dom (heap w)) := s'']> (heap w))
           (trace w ++ EvConstruct :: probe_events (before ++ [h]))).
Proof.
  intros Hget Hhosts Hs Hbefore Hcall.
  rewrite check_ssl_handled, (handled_hosts _ _ Hget), Hhosts.
  unfold handled_batch. rewrite Hs, (probes_raise _ _ _ _ _ _ _ _ Hbefore Hcall).
  replace (before ++ h :: after)%list with ((before ++ [h]) ++ after)%list
    by (by rewrite <- app_assoc).
  rewrite take_app_length' by (rewrite length_app; simpl; lia). done.
Qed.

(** Over a checker that lets an error escape on [down.example], the batch
    of three hosts is answered 500 and [slow.example] is never probed. *)
Lemma check_ssl_probe_exception_aborts_witness :
  @check_ssl Examples.brittle_checker (hosts_request Examples.three_hosts)
     (World ∅ []) =
    (Returns (Response 500
                (failure_body
                   (Exn "gaierror" "[Errno -2] Name or service not known"))),
     World (<[fresh (dom (∅ : gmap nat ())) := ()]> ∅)
           [EvConstruct;
            EvProbeBegin (JStr "example.com"); EvProbeEnd (JStr "example.com");
            EvProbeBegin (JStr "down.example"); EvProbeEnd (JStr "down.example")]).
Proof.
  exact (@check_ssl_probe_exception_aborts Examples.brittle_checker
           [("hosts", Examples.three_hosts)] Examples.three_hosts
           [JStr "example.com"] [JStr "slow.example"] (JStr "down.example")
           (World ∅ []) () () () _ _ eq_refl eq_refl eq_refl eq_refl eq_refl).
Defined.

(** X2.  A body that parses to a truthy value that is not a container
    ([true], a non-zero integer, a non-zero float) is answered 500: the
    membership test on it raises [TypeError], naming the value's type, and
    nothing is constructed or probed. *)
Theorem check_ssl_scalar_body `{Checker} (data : json) (w : world) :
  truthy data = true →
  (∃ b : bool, data = JBool b) ∨ (∃ n : Z, data = JInt n)
    ∨ (∃ q : Q, data = JFloat q) →
  ∃ e : exn,
    contains "hosts" data = Raises e
    ∧ exc_type e = "TypeError"
    ∧ exc_str e = "argument of type '" ++ type_name data ++ "' is not iterable"
    ∧ check_ssl (JsonBody data) w =
        (Returns (Response 500 (failure_body e)), w).
Proof.
  intros Ht Hscalar.
  assert (∃ e, contains "hosts" data = Raises e
               ∧ exc_type e = "TypeError"
               ∧ exc_str e =
                   "argument of type '" ++ type_name data ++ "' is not iterable")
    as (e & Hc & Hty & Hstr).
  { destruct Hscalar as [[b ->]|[[n ->]|[q ->]]]; by eexists. }
  exists e. repeat (split; [done|]).
  rewrite check_ssl_handled. unfold handled. rewrite Ht, Hc.
  cbn [negb fst snd]. by rewrite world_unchanged.
Qed.

(** The bodies [1.5], [5] and [true]. *)
Lemma check_ssl_scalar_body_witness :
  (∃ e : exn,
     contains "hosts" (JFloat (Qmake 3 2)) = Raises e
     ∧ exc_type e = "TypeError"
     ∧ exc_str e = "argument of type 'float' is not iterable"
     ∧ @check_ssl Examples.example_checker (JsonBody (JFloat (Qmake 3 2)))
         (World ∅ []) =
       (Returns (Response 500 (failure_body e)), World ∅ []))
  ∧ (∃ e : exn,
       contains "hosts" (JInt 5) = Raises e
       ∧ exc_type e = "TypeError"
       ∧ exc_str e = "argument of type 'int' is not iterable"
       ∧ @check_ssl Examples.example_checker (JsonBody (JInt 5)) (World ∅ []) =
         (Returns (Response 500 (failure_body e)), World ∅ []))
  ∧ (∃ e : exn,
       contains "hosts" (JBool true) = Raises e
       ∧ exc_type e = "TypeError"
       ∧ exc_str e = "argument of type 'bool' is not iterable"
       ∧ @check_ssl Examples.example_checker (JsonBody (JBool true))
           (World ∅ []) =
         (Returns (Response 500 (failure_body e)), World ∅ [])).
Proof.
  split; [|split].
  - refine (@check_ssl_scalar_body Examples.example_checker
              (JFloat (Qmake 3 2)) (World ∅ []) eq_refl _).
    right. right. by eexists.
  - refine (@check_ssl_scalar_body Examples.example_checker (JInt 5)
              (World ∅ []) eq_refl _).
    right. left. by eexists.
  - refine (@check_ssl_scalar_body Examples.example_checker (JBool true)
              (World ∅ []) eq_refl _).
    left. by eexists.
Defined.

(** ** Further facts about the view *)

(** The [try] block itself only ever returns a 200 or a 400. *)
Lemma check_ssl_try_status `{Checker} (req : request) (w : world) (r : response) :
  (check_ssl_try req w).1 = Returns r → status r = 200%Z ∨ status r = 400%Z.
Proof.
  unfold check_ssl_try, hosts_missing, get_json, bind, ret, raise, lift.
  destruct req as [data|e]; [|done].
  destruct (truthy data); simpl; [|intros [= <-]; by right].
  destruct (contains "hosts" data) as [[|]|e]; simpl;
    [|intros [= <-]; by right|done].
  destruct (getitem data "hosts") as [hv|e]; simpl; [|done].
  destruct (new_SSLChecker w) as [[l|e] w1]; [|done].
  destruct (probe_loop l (as_host_list hv) [] w1) as [[rs|e] w2]; [|done].
  destruct (jsonify_results rs) as [js|e]; simpl; [|done].
  intros [= <-]. by left.
Qed.

(** X3.  Every exception raised inside the [try] block (every instance of
    [Exception]: those are what the clause of line 32 catches) is turned
    into a response.  The view answers with the response the block
    returned, a 200 or a 400, exactly when the block returns, and with a
    500 carrying the exception's text exactly when it raises. *)
Theorem check_ssl_always_responds `{Checker} (req : request) (w : world) :
  ∃ (r : response) (w' : world),
    check_ssl req w = (Returns r, w')
    ∧ (status r = 200%Z ∨ status r = 400%Z ∨ status r = 500%Z)
    ∧ match (check_ssl_try req w).1 with
      | Returns r0 => r = r0 ∧ (status r = 200%Z ∨ status r = 400%Z)
      | Raises e => r = Response 500 (failure_body e)
      end.
Proof.
  pose proof (check_ssl_try_status req w) as Htry.
  unfold check_ssl, try_except, ret.
  destruct (check_ssl_try req w) as [[r0|e] w']; simpl in *.
  - exists r0, w'. destruct (Htry r0 eq_refl) as [H200|H400].
    + split; [done|]. split; [by left|]. split; [done|by left].
    + split; [done|]. split; [by right; left|]. split; [done|by right].
  - exists (Response 500 (failure_body e)), w'.
    split; [done|]. split; [by right; right|done].
Qed.

(** X4.  Any [hosts] value that is not a list (a string, but also [null], a
    number or an object) is probed as a single host, and such a request is
    never rejected with 400. *)
Theorem check_ssl_scalar_hosts `{Checker} (hv : json) (w : world) :
  (∀ items : list json, hv ≠ JList items) →
  check_ssl (hosts_request hv) w = check_ssl (hosts_request (JList [hv])) w
  ∧ ∃ r : response,
      (check_ssl (hosts_request hv) w).1 = Returns r ∧ status r ≠ 400%Z.
Proof.
  intros Hscalar. unfold hosts_request. rewrite !check_ssl_handled.
  rewrite (handled_hosts _ hv), (handled_hosts _ (JList [hv])) by done.
  assert (as_host_list hv = [hv]) as -> by (destruct hv; try done; by edestruct Hscalar).
  split; [done|]. eexists; split; [done|].
  unfold handled_batch. destruct SSLChecker_init as [s|e]; [|done].
  destruct (probes s [hv]) as [[[rs|e] s'] n]; [|done].
  destruct (jsonify_results rs); done.
Qed.

(** The body [{"hosts": null}]. *)
Lemma check_ssl_scalar_hosts_witness :
  @check_ssl Examples.example_checker (hosts_request JNull) (World ∅ []) =
    @check_ssl Examples.example_checker (hosts_request (JList [JNull]))
      (World ∅ [])
  ∧ ∃ r : response,
      (@check_ssl Examples.example_checker (hosts_request JNull)
         (World ∅ [])).1 = Returns r
      ∧ status r ≠ 400%Z.
Proof.
  refine (@check_ssl_scalar_hosts Examples.example_checker JNull (World ∅ []) _).
  discriminate.
Defined.

(** ** The three kinds of response *)

Section ResponseFacts.
Context `{Checker}.

Lemma handled_no_hosts (fields : list (string * json)) :
  dict_get "hosts" fields = None →
  handled (JsonBody (JDict fields)) = (Response 400 missing_hosts_body, [], None).
Proof.
  intros Hget. unfold handled, contains. rewrite Hget.
  rewrite bool_decide_eq_false_2 by (intros [x Hx]; discriminate).
  by destruct (negb (truthy (JDict fields))).
Qed.

(** A batch is answered 200 exactly when the constructor, every call and
    the serialisation return. *)
Lemma handled_batch_200 (hosts : list json) (r : response) :
  (handled_batch hosts).1.1 = r →
  (status r = 200%Z ↔
   ∃ (s : checker) (rs : list result) (js : list json),
     SSLChecker_init = Returns s
     ∧ (probes s hosts).1.1 = Returns rs
     ∧ jsonify_results rs = Returns js
     ∧ r = Response 200 (success_body js))
  ∧ (status r = 200%Z ∨ status r = 500%Z).
Proof.
  unfold handled_batch. destruct SSLChecker_init as [s|e] eqn:Hs.
  - destruct (probes s hosts) as [[[rs|e] s'] n] eqn:Hp; simpl.
    + destruct (jsonify_results rs) as [js|e] eqn:Hj; simpl; intros <-.
      * split; [|by left]. split; [|done]. intros _. exists s, rs, js.
        rewrite Hp. done.
      * split; [|by right]. split; [done|].
        intros (s0 & rs0 & js0 & [= <-] & Hrs & Hjs & _).
        rewrite Hp in Hrs. simpl in Hrs. injection Hrs as <-. congruence.
    + intros <-. split; [|by right]. split; [done|].
      intros (s0 & rs0 & js0 & [= <-] & Hrs & _). rewrite Hp in Hrs. done.
  - simpl. intros <-. split; [|by right]. split; [done|].
    by intros (s0 & rs0 & js0 & ? & _).
Qed.

(** Membership and subscript agree only on a [dict]. *)
Lemma contains_then_getitem (data : json) (hv : json) :
  contains "hosts" data = Returns true →
  getitem data "hosts" = Returns hv →
  ∃ fields : list (string * json),
    data = JDict fields ∧ dict_get "hosts" fields = Some hv.
Proof.
  destruct data; try done. simpl.
  destruct (dict_get "hosts" fields) as [x|] eqn:Hget; [|done].
  intros _ [= <-]. by exists fields.
Qed.

End ResponseFacts.

(** X5.  A request is answered 400 exactly when [get_json] returns a falsy
    value ([None], [false], [0], an empty string, list or object) or a
    list, string or object in which ['hosts'] does not occur; and a 400
    always carries the missing-hosts body. *)
Theorem check_ssl_400_iff `{Checker} (req : request) (w : world) :
  ∃ r : response,
    (check_ssl req w).1 = Returns r
    ∧ (status r = 400%Z ↔
       ∃ data : json,
         req = JsonBody data
         ∧ (truthy data = false ∨ contains "hosts" data = Returns false))
    ∧ (status r = 400%Z ↔ r = Response 400 missing_hosts_body).
Proof.
  rewrite check_ssl_handled. eexists. split; [done|].
  destruct req as [data|e]; simpl.
  - destruct (truthy data) eqn:Ht; simpl.
    + destruct (contains "hosts" data) as [[|]|e] eqn:Hc; simpl.
      * destruct (getitem data "hosts") as [hv|e] eqn:Hg; simpl.
        -- destruct (handled_batch_200 (as_host_list hv) _ eq_refl) as [_ Hst].
           split; (split; [intros H400; rewrite H400 in Hst; by destruct Hst|]).
           ++ intros (d & [= <-] & [Hf|Hf]); [by rewrite Ht in Hf|by rewrite Hc in Hf].
           ++ intros Hr. by rewrite Hr in Hst; destruct Hst.
        -- split; (split; [done|]); [|done].
           intros (d & [= <-] & [Hf|Hf]); [by rewrite Ht in Hf|by rewrite Hc in Hf].
      * split; [|done]. split; [|done]. intros _. exists data. split; [done|by right].
      * split; (split; [done|]); [|done].
        intros (d & [= <-] & [Hf|Hf]); [by rewrite Ht in Hf|by rewrite Hc in Hf].
    + split; [|done]. split; [|done]. intros _. exists data. split; [done|by left].
  - split; (split; [done|]); [|done]. by intros (d & Hd & _).
Qed.

(** X6.  A request is answered 200 exactly when its body is an object with
    a [hosts] member, the constructor returns, every call of the batch
    returns and every result serialises; the body then holds the rendered
    results. *)
Theorem check_ssl_200_iff `{Checker} (req : request) (w : world) :
  ∃ r : response,
    (check_ssl req w).1 = Returns r
    ∧ (status r = 200%Z ↔
       ∃ (fields : list (string * json)) (hv : json) (s : checker)
         (rs : list result) (js : list json),
         req = JsonBody (JDict fields)
         ∧ dict_get "hosts" fields = Some hv
         ∧ SSLChecker_init = Returns s
         ∧ (probes s (as_host_list hv)).1.1 = Returns rs
         ∧ jsonify_results rs = Returns js
         ∧ r = Response 200 (success_body js)).
Proof.
  rewrite check_ssl_handled. eexists. split; [done|]. split.
  - destruct req as [data|e]; simpl; [|done].
    destruct (truthy data) eqn:Ht; simpl; [|done].
    destruct (contains "hosts" data) as [[|]|e] eqn:Hc; simpl; try done.
    destruct (getitem data "hosts") as [hv|e] eqn:Hg; simpl; [|done].
    destruct (contains_then_getitem _ _ Hc Hg) as (fields & -> & Hget).
    intros H200.
    destruct (handled_batch_200 (as_host_list hv) _ eq_refl) as [[Hfw _] _].
    destruct (Hfw H200) as (s & rs & js & Hs & Hrs & Hjs & Hr).
    by exists fields, hv, s, rs, js.
  - intros (fields & hv & s & rs & js & -> & Hget & Hs & Hrs & Hjs & Hr).
    rewrite (handled_hosts _ _ Hget) in *.
    destruct (handled_batch_200 (as_host_list hv) _ eq_refl) as [[_ Hbw] _].
    apply Hbw. by exists s, rs, js.
Qed.

(** X7.  A body that is not an object but in which ['hosts'] occurs (a list
    with the element ['hosts'], a string containing it) gets past the
    missing-hosts test and fails on the subscript: it is answered 500 with
    a [TypeError], and nothing is constructed or probed. *)
Theorem check_ssl_hosts_in_non_object `{Checker} (data : json) (w : world) :
  (∀ fields : list (string * json), data ≠ JDict fields) →
  contains "hosts" data = Returns true →
  ∃ e : exn,
    exc_type e = "TypeError"
    ∧ getitem data "hosts" = Raises e
    ∧ check_ssl (JsonBody data) w = (Returns (Response 500 (failure_body e)), w).
Proof.
  intros Hobj Hc.
  assert (truthy data = true) as Ht.
  { destruct data as [| | | |s|items|fields]; try done.
    - by destruct s.
    - by destruct items.
    - by destruct (Hobj fields). }
  assert (∃ e, exc_type e = "TypeError" ∧ getitem data "hosts" = Raises e)
    as (e & He & Hg).
  { destruct data as [| | | |s|items|fields]; try done.
    - eexists. split; [|reflexivity]. done.
    - eexists. split; [|reflexivity]. done.
    - by destruct (Hobj fields). }
  exists e. split; [done|]. split; [done|].
  rewrite check_ssl_handled. unfold handled. rewrite Ht, Hc, Hg.
  cbn [negb fst snd]. by rewrite world_unchanged.
Qed.

(** The body [["hosts"]]. *)
Lemma check_ssl_hosts_in_non_object_witness :
  ∃ e : exn,
    exc_type e = "TypeError"
    ∧ getitem (JList [JStr "hosts"]) "hosts" = Raises e
    ∧ @check_ssl Examples.example_checker (JsonBody (JList [JStr "hosts"]))
        (World ∅ []) =
      (Returns (Response 500 (failure_body e)), World ∅ []).
Proof.
  refine (@check_ssl_hosts_in_non_object Examples.example_checker
            (JList [JStr "hosts"]) (World ∅ []) _ eq_refl).
  discriminate.
Defined.

(** X8.  Serialisation comes after the loop: when every host has been
    probed and [jsonify] then raises on a result, the request is answered
    500 although every call into the checker was made. *)
Theorem check_ssl_unserialisable_result `{Checker}
    (fields : list (string * json)) (hv : json) (w : world)
    (s s' : checker) (rs : list result) (e : exn) :
  dict_get "hosts" fields = Some hv →
  SSLChecker_init = Returns s →
  probes s (as_host_list hv) = (Returns rs, s', length (as_host_list hv)) →
  jsonify_results rs = Raises e →
  check_ssl (JsonBody (JDict fields)) w =
    (Returns (Response 500 (failure_body e)),
     World (<[fresh (dom (heap w)) := s']> (heap w))
           (trace w ++ EvConstruct :: probe_events (as_host_list hv))).
Proof.
  intros Hget Hs Hp Hj.
  rewrite check_ssl_handled, (handled_hosts _ _ Hget).
  unfold handled_batch. rewrite Hs, Hp, Hj, firstn_all. done.
Qed.

Lemma check_ssl_unserialisable_result_witness :
  @check_ssl Examples.opaque_checker (hosts_request Examples.three_hosts)
     (World ∅ []) =
    (Returns (Response 500
                (failure_body
                   (Exn "TypeError"
                      "Object of type CertificateInfo is not JSON serializable"))),
     World (<[fresh (dom (∅ : gmap nat nat)) := 3]> ∅)
           (EvConstruct :: probe_events (as_host_list Examples.three_hosts))).
Proof.
  exact (@check_ssl_unserialisable_result Examples.opaque_checker
           [("hosts", Examples.three_hosts)] Examples.three_hosts (World ∅ [])
           0 3 (as_host_list Examples.three_hosts) _
           eq_refl eq_refl eq_refl eq_refl).
Defined.

(** X9.  When the constructor raises, the request is answered 500 with its
    message; no object is left behind and no host is probed. *)
Theorem check_ssl_constructor_raises `{Checker}
    (fields : list (string * json)) (hv : json) (w : world) (e : exn) :
  dict_get "hosts" fields = Some hv →
  SSLChecker_init = Raises e →
  check_ssl (JsonBody (JDict fields)) w =
    (Returns (Response 500 (failure_body e)),
     World (heap w) (trace w ++ [EvConstruct])).
Proof.
  intros Hget Hs. rewrite check_ssl_handled, (handled_hosts _ _ Hget).
  unfold handled_batch. rewrite Hs. done.
Qed.

Lemma check_ssl_constructor_raises_witness :
  @check_ssl Examples.unavailable_checker (hosts_request Examples.three_hosts)
     (World ∅ []) =
    (Returns (Response 500
                (failure_body (Exn "RuntimeError" "no SSL context available"))),
     World ∅ [EvConstruct]).
Proof.
  exact (@check_ssl_constructor_raises Examples.unavailable_checker
           [("hosts", Examples.three_hosts)] Examples.three_hosts (World ∅ [])
           _ eq_refl eq_refl).
Defined.

(** X10.  Only the [hosts] member of the body is read: two object bodies
    with the same [hosts] member (or both without one) are served
    identically, whatever else they carry. *)
Theorem check_ssl_reads_only_hosts `{Checker}
    (fields1 fields2 : list (string * json)) (w : world) :
  dict_get "hosts" fields1 = dict_get "hosts" fields2 →
  check_ssl (JsonBody (JDict fields1)) w = check_ssl (JsonBody (JDict fields2)) w.
Proof.
  intros Hsame. rewrite !check_ssl_handled.
  destruct (dict_get "hosts" fields2) as [hv|] eqn:Hget.
  - by rewrite (handled_hosts _ _ Hsame), (handled_hosts _ _ Hget).
  - by rewrite (handled_no_hosts _ Hsame), (handled_no_hosts _ Hget).
Qed.

Lemma check_ssl_reads_only_hosts_witness :
  @check_ssl Examples.example_checker
     (JsonBody (JDict [("verbose", JBool true);
                       ("hosts", Examples.three_hosts);
                       ("timeout", JInt 5)])) (World ∅ []) =
  @check_ssl Examples.example_checker (hosts_request Examples.three_hosts)
     (World ∅ []).
Proof.
  exact (@check_ssl_reads_only_hosts Examples.example_checker
           [("verbose", JBool true); ("hosts", Examples.three_hosts);
            ("timeout", JInt 5)]
           [("hosts", Examples.three_hosts)] (World ∅ []) eq_refl).
Defined.

(** X11.  The members of the response body follow the status: every body
    is an object; [success] is [true] on a 200, [false] on a 500 and absent
    on a 400; [results] is present exactly on a 200 and [error] exactly on
    a 400 or 500. *)
Theorem check_ssl_response_members `{Checker} (req : request) (w : world) :
  ∃ (r : response) (fields : list (string * json)),
    (check_ssl req w).1 = Returns r
    ∧ body r = JDict fields
    ∧ dict_get "success" fields =
        (if (status r =? 200)%Z then Some (JBool true)
         else if (status r =? 500)%Z then Some (JBool false)
         else None)
    ∧ (is_Some (dict_get "results" fields) ↔ status r = 200%Z)
    ∧ (is_Some (dict_get "error" fields) ↔ status r ≠ 200%Z).
Proof.
  rewrite check_ssl_handled.
  assert (∀ e, ∃ fields,
    body (Response 500 (failure_body e)) = JDict fields
    ∧ dict_get "success" fields = Some (JBool false)
    ∧ (is_Some (dict_get "results" fields) ↔ 500%Z = 200%Z)
    ∧ (is_Some (dict_get "error" fields) ↔ 500%Z ≠ 200%Z)) as H500.
  { intros e. eexists. split; [done|]. split; [done|]. simpl.
    split; split; try done; try by intros [x Hx]. }
  assert (∃ fields,
    body (Response 400 missing_hosts_body) = JDict fields
    ∧ dict_get "success" fields = None
    ∧ (is_Some (dict_get "results" fields) ↔ 400%Z = 200%Z)
    ∧ (is_Some (dict_get "error" fields) ↔ 400%Z ≠ 200%Z)) as H400.
  { eexists. split; [done|]. split; [done|]. simpl.
    split; split; try done; try by intros [x Hx]. }
  assert (∀ js, ∃ fields,
    body (Response 200 (success_body js)) = JDict fields
    ∧ dict_get "success" fields = Some (JBool true)
    ∧ (is_Some (dict_get "results" fields) ↔ 200%Z = 200%Z)
    ∧ (is_Some (dict_get "error" fields) ↔ 200%Z ≠ 200%Z)) as H200.
  { intros js. eexists. split; [done|]. split; [done|]. simpl.
    split; split; try done; try by intros [x Hx]. }
  assert (∀ hosts, ∃ fields,
    body (handled_batch hosts).1.1 = JDict fields
    ∧ dict_get "success" fields =
        (if (status (handled_batch hosts).1.1 =? 200)%Z then Some (JBool true)
         else if (status (handled_batch hosts).1.1 =? 500)%Z
              then Some (JBool false) else None)
    ∧ (is_Some (dict_get "results" fields)
       ↔ status (handled_batch hosts).1.1 = 200%Z)
    ∧ (is_Some (dict_get "error" fields)
       ↔ status (handled_batch hosts).1.1 ≠ 200%Z)) as Hbatch.
  { intros hosts. unfold handled_batch.
    destruct SSLChecker_init as [s|e]; [|apply H500].
    destruct (probes s hosts) as [[[rs|e] s'] n]; [|apply H500].
    destruct (jsonify_results rs) as [js|e]; [apply H200|apply H500]. }
  assert (∀ x : response * list event * option checker,
    (∃ fields, body x.1.1 = JDict fields
       ∧ dict_get "success" fields =
           (if (status x.1.1 =? 200)%Z then Some (JBool true)
            else if (status x.1.1 =? 500)%Z then Some (JBool false) else None)
       ∧ (is_Some (dict_get "results" fields) ↔ status x.1.1 = 200%Z)
       ∧ (is_Some (dict_get "error" fields) ↔ status x.1.1 ≠ 200%Z)) →
    ∃ r fields, (Returns x.1.1, World (allocated x.2 (heap w))
                                   (trace w ++ x.1.2)).1 = Returns r
      ∧ body r = JDict fields
      ∧ dict_get "success" fields =
          (if (status r =? 200)%Z then Some (JBool true)
           else if (status r =? 500)%Z then Some (JBool false) else None)
      ∧ (is_Some (dict_get "results" fields) ↔ status r = 200%Z)
      ∧ (is_Some (dict_get "error" fields) ↔ status r ≠ 200%Z)) as Hwrap.
  { intros x (fields & Hx). by exists x.1.1, fields. }
  apply Hwrap.
  destruct req as [data|e]; simpl; [|apply H500].
  destruct (truthy data); simpl; [|apply H400].
  destruct (contains "hosts" data) as [[|]|e]; simpl;
    [|apply H400|apply H500].
  destruct (getitem data "hosts") as [hv|e]; simpl; [apply Hbatch|apply H500].
Qed.

(** X12.  The loop composes: probing a host list [xs ++ ys] is probing
    [xs] and then, if no call raised, probing [ys] on the same checker with
    the results accumulated so far. *)
Theorem probe_loop_app `{Checker}
    (l : nat) (xs ys : list json) (acc : list result) (w : world) :
  probe_loop l (xs ++ ys) acc w =
    bind (probe_loop l xs acc) (fun results => probe_loop l ys results) w.
Proof.
  revert acc w. induction xs as [|x xs IH]; intros acc w; simpl; [done|].
  unfold bind in IH |- *.
  destruct (call_get_certificate_info l x w) as [[r|e] w']; [|done].
  by rewrite IH.
Qed.

(** X13.  Two requests served one after the other: the second gets the
    response it would get served first, its calls are appended after those
    of the first, and whatever the first left in the store is still there,
    unchanged, after the second. *)
Theorem check_ssl_twice `{Checker} (req1 req2 : request) (w : world) :
  ∃ evs1 evs2 : list event,
    (check_ssl req2 (check_ssl req1 w).2).1 = (check_ssl req2 w).1
    ∧ trace (check_ssl req1 w).2 = (trace w ++ evs1)%list
    ∧ trace (check_ssl req2 w).2 = (trace w ++ evs2)%list
    ∧ trace (check_ssl req2 (check_ssl req1 w).2).2 =
        (trace w ++ evs1 ++ evs2)%list
    ∧ ∀ (l : nat) (s : checker),
        heap (check_ssl req1 w).2 !! l = Some s →
        heap (check_ssl req2 (check_ssl req1 w).2).2 !! l = Some s.
Proof.
  exists (handled req1).1.2, (handled req2).1.2.
  rewrite !check_ssl_handled. simpl. rewrite <- app_assoc.
  repeat (split; [done|]).
  intros l s Hl. destruct (handled req2).2 as [s2|]; simpl; [|done].
  rewrite lookup_insert_ne; [done|]. intros <-.
  pose proof (is_fresh (dom (allocated (handled req1).2 (heap w)))) as Hfresh.
  apply not_elem_of_dom in Hfresh. by rewrite Hfresh in Hl.
Qed.
